(** * vue3-component-library: the plugin installer and its registry

    A shallow embedding of the library's JavaScript:

    - [Dist]: the bundled ES module build (the two compiled single-file
      components, the [components] object and [plugin.install]);
    - [Src]: [src/components.js] and [src/index.js], whose two [.vue]
      imports are taken as parameters;
    - [Runtime]: the compiled render functions against an explicit [vue]
      runtime; [Open]: [install] on a host that can reach the registry.

    Plain JavaScript objects are association lists kept in property
    enumeration order; [install] runs in a small monad that threads the
    module binding and the host's state, propagates thrown values and
    records every call of [Vue.component]. *)

From Stdlib Require Import String List Bool Arith Lia Permutation.
Import ListNotations.
Open Scope string_scope.
Open Scope list_scope.

Set Implicit Arguments.
Set Warnings "-register-all".

(** ** JavaScript values and plain objects *)

Module JS.

(** The values a render function may be handed; the compiled render
    functions never look at them. *)
Inductive JSValue : Type :=
| JSUndefined
| JSNull
| JSBoolean (b : bool)
| JSString (s : string).

(** What a [throw] carries: a [TypeError] raised by the language itself,
    or any value thrown by foreign code. *)
Inductive Thrown : Type :=
| TypeError (message : string)
| ThrownValue (v : JSValue).

(** Completion of a statement or call: normal, or abrupt by [throw]. *)
Inductive Completion (A : Type) : Type :=
| Normal (a : A)
| Throw (e : Thrown).
Arguments Throw {A} e.

(** A plain object holding values of type [V].

    [own] lists the own enumerable string-keyed properties in the order
    [for ... in] visits them (for the non-numeric keys used here, creation
    order). [inherited] lists the enumerable keys reachable through the
    prototype chain; for an object literal these are whatever enumerable
    properties the environment has put on [Object.prototype], normally
    none. *)
Record JSObject (V : Type) : Type := mkObject {
  own : list (string * V);
  inherited : list string
}.

Section Objects.
Context {V : Type}.

Definition own_keys (o : JSObject V) : list string := map fst (own o).

Definition own_values (o : JSObject V) : list V := map snd (own o).

(** [Object.prototype.hasOwnProperty.call(o, k)] *)
Definition hasOwn (o : JSObject V) (k : string) : bool :=
  existsb (String.eqb k) (own_keys o).

Fixpoint lookup (k : string) (l : list (string * V)) : option V :=
  match l with
  | [] => None
  | (k', v) :: l' => if String.eqb k k' then Some v else lookup k l'
  end.

(** [o[k]] for an own property; [None] stands for [undefined]. Values of
    inherited properties are not modelled: [install] reads a property only
    behind its [hasOwnProperty] guard. *)
Definition get (o : JSObject V) (k : string) : option V := lookup k (own o).

(** The keys visited by [for (const k in o)]: own keys first, then the
    inherited ones that no own property shadows. *)
Definition for_in_keys (o : JSObject V) : list string :=
  own_keys o ++ filter (fun k => negb (hasOwn o k)) (inherited o).

(** [o[k] = v]: an existing property keeps its place, a new one goes last. *)
Fixpoint assign (k : string) (v : V) (l : list (string * V)) : list (string * V) :=
  match l with
  | [] => [(k, v)]
  | (k', v') :: l' => if String.eqb k k' then (k', v) :: l' else (k', v') :: assign k v l'
  end.

(** An object literal [{ k1: v1, ..., kn: vn }] evaluated where
    [Object.prototype] exposes the enumerable keys [proto]. *)
Definition object_literal (proto : list string) (props : list (string * V)) : JSObject V :=
  {| own := fold_left (fun l kv => assign (fst kv) (snd kv) l) props [];
     inherited := proto |}.

(** Own keys of an object are pairwise distinct. *)
Definition well_formed (o : JSObject V) : Prop := NoDup (own_keys o).

(** What a guarded read [o[k]] contributes to a walk over keys: the value
    held under [k], if there is one. *)
Definition pick (o : JSObject V) (k : string) : list V :=
  match get o k with Some v => [v] | None => [] end.

(** The values met when every own key is read in enumeration order. *)
Definition visited (o : JSObject V) : list V := flat_map (pick o) (own_keys o).

End Objects.

(** The comma operator [(a, b)]: evaluate [a], discard it, yield [b]. *)
Definition comma {A B : Type} (a : A) (b : B) : B := b.

End JS.
Import JS.

(** ** The part of the [vue] runtime the compiled templates import *)

Module Vue.

Definition Props : Type := list (string * string).

(** A virtual DOM node: element type, props ([None] when the argument is
    omitted) and children. *)
Inductive VNode : Type :=
| Element (type : string) (props : option Props) (children : list VNode).

Definition vnode_type (n : VNode) : string := let 'Element t _ _ := n in t.

(** The node-level reading of the two runtime operations, in which only
    the node built counts; their effect on the runtime's own bookkeeping is
    the subject of [Runtime].

    [openBlock()] yields nothing the caller uses. *)
Definition openBlock (_ : unit) : unit := tt.

(** [createElementBlock(type, props)] with no children argument. *)
Definition createElementBlock (type : string) (props : option Props) : VNode :=
  Element type props [].



(** A compiled render function
    [(_ctx, _cache, $props, $setup, $data, $options) => vnode]. *)
Definition RenderFunction : Type :=
  JSValue -> JSValue -> JSValue -> JSValue -> JSValue -> JSValue -> VNode.

(** A component definition object: [name] from the script block, [render]
    and [__file] attached by the single-file-component compiler. *)
Record ComponentDef : Type := mkComponent {
  name : string;
  render : option RenderFunction;
  __file : option string
}.

(** [c.render = f] *)
Definition set_render (f : RenderFunction) (c : ComponentDef) : ComponentDef :=
  {| name := name c; render := Some f; __file := __file c |}.

(** [c.__file = path] *)
Definition set___file (path : string) (c : ComponentDef) : ComponentDef :=
  {| name := name c; render := render c; __file := Some path |}.

(** Calling [c.render()] with every argument left [undefined]. *)
Definition call_render (c : ComponentDef) : option VNode :=
  match render c with
  | Some f => Some (f JSUndefined JSUndefined JSUndefined JSUndefined JSUndefined JSUndefined)
  | None => None
  end.

End Vue.
Import Vue.

(** ** Execution: module binding, host state, thrown values, call record *)

Module Exec.

(** One invocation of [Vue.component(name, definition)] and how it
    completed. *)
Record CallRecord : Type := mkCall {
  call_name : string;
  call_def : ComponentDef;
  call_result : Completion unit
}.

Definition call_args (c : CallRecord) : string * ComponentDef :=
  (call_name c, call_def c).

Definition returned (c : CallRecord) : Prop := call_result c = Normal tt.

Section WithHost.
Context {S : Type}.

(** A host handle confined to its own state: its [component] method acts
    on the host's state of type [S] and either returns or throws. Hosts that
    also reach the registry are the subject of [Open]. *)
Record Host : Type := mkHost {
  component : string -> ComponentDef -> S -> Completion unit * S
}.

(** What a run can read or change: the object bound to the module-level
    variable [components], and the host's registration state. *)
Record World : Type := mkWorld {
  module_components : JSObject ComponentDef;
  hostState : S
}.

Record Outcome (A : Type) : Type := mkOutcome {
  result : Completion A;
  world : World;
  trace : list CallRecord
}.

Definition M (A : Type) : Type := World -> Outcome A.

Definition ret {A : Type} (a : A) : M A :=
  fun w => {| result := Normal a; world := w; trace := [] |}.

Definition throw {A : Type} (e : Thrown) : M A :=
  fun w => {| result := Throw e; world := w; trace := [] |}.

Definition bind {A B : Type} (m : M A) (f : A -> M B) : M B :=
  fun w =>
    let o := m w in
    match result o with
    | Normal a =>
        let o' := f a (world o) in
        {| result := result o'; world := world o'; trace := trace o ++ trace o' |}
    | Throw e =>
        {| result := Throw e; world := world o; trace := trace o |}
    end.

(** Reading the module-level variable [components]. *)
Definition read_components : M (JSObject ComponentDef) :=
  fun w => ret (module_components w) w.

(** [Vue.component(name, definition)] *)
Definition call_component (Vue : Host) (n : string) (d : ComponentDef) : M unit :=
  fun w =>
    let '(r, s') := component Vue n d (hostState w) in
    {| result := r;
       world := {| module_components := module_components w; hostState := s' |};
       trace := [ {| call_name := n; call_def := d; call_result := r |} ] |}.

End WithHost.

Arguments Host S : clear implicits.
Arguments World S : clear implicits.
Arguments Outcome S A : clear implicits.
Arguments M S A : clear implicits.

End Exec.
Import Exec.

Declare Scope js_scope.
Delimit Scope js_scope with js.
Notation "x <- m ;; k" := (bind m (fun x => k))
  (at level 100, m at next level, right associativity) : js_scope.
Notation "m ;; k" := (bind m (fun _ => k))
  (at level 100, right associativity) : js_scope.
Open Scope js_scope.

Module Loop.
Section WithHost.
Context {S : Type}.

(** The statement sequence of a loop over an already computed key list. *)
Fixpoint for_each (keys : list string) (body : string -> M S unit) : M S unit :=
  match keys with
  | [] => ret tt
  | k :: ks => body k ;; for_each ks body
  end.

(** [for (const prop in obj) body] *)
Definition for_in {V : Type} (obj : M S (JSObject V)) (body : string -> M S unit) : M S unit :=
  o <- obj ;; for_each (for_in_keys o) body.

(** [obj.hasOwnProperty(prop)]: the method is found on [Object.prototype]
    unless an own property of that name shadows it, in which case the value
    found is no function and the call is a [TypeError]. What is found on the
    chain is taken to be the built-in: a chain that overrides it, which would
    show as an inherited key [hasOwnProperty], is outside this model. *)
Definition call_hasOwnProperty {V : Type} (o : JSObject V) (prop : string) : M S bool :=
  if hasOwn o "hasOwnProperty"
  then throw (TypeError "components.hasOwnProperty is not a function")
  else ret (hasOwn o prop).

End WithHost.
End Loop.
Import Loop.

(** The shape the host expects of a plugin: an object with an [install]
    method taking the host handle. *)
Record PluginObject (S : Type) : Type := mkPlugin {
  install : Host S -> M S unit
}.

(** ** The bundled build *)

Module Dist.

(** [var script$1 = { name: 'InputText' }] *)
Definition script_1_object : ComponentDef :=
  {| name := "InputText"; render := None; __file := None |}.

Definition _hoisted_1 : Props := [("type", "text")].

Definition render_1 (_ctx _cache props setup data options : JSValue) : VNode :=
  comma (openBlock tt) (createElementBlock "input" (Some _hoisted_1)).

(** [script$1] once [render] and [__file] have been attached. *)
Definition script_1 : ComponentDef :=
  set___file "src/InputText.vue" (set_render render_1 script_1_object).

(** [var script = { name: 'InputTextarea' }] *)
Definition script_object : ComponentDef :=
  {| name := "InputTextarea"; render := None; __file := None |}.

Definition render (_ctx _cache props setup data options : JSValue) : VNode :=
  comma (openBlock tt) (createElementBlock "textarea" None).

(** [script] once [render] and [__file] have been attached. *)
Definition script : ComponentDef :=
  set___file "src/InputTextarea.vue" (set_render render script_object).

(** [var components = { InputTextarea: script, InputText: script$1 }] *)
Definition components (proto : list string) : JSObject ComponentDef :=
  object_literal proto [("InputTextarea", script); ("InputText", script_1)].

Definition plugin {S : Type} : PluginObject S :=
  {| install := fun Vue =>
       for_in read_components (fun prop =>
         cs <- read_components ;;
         guard <- call_hasOwnProperty cs prop ;;
         if guard then
           cs' <- read_components ;;
           match get cs' prop with
           | Some component => call_component Vue (name component) component
           | None => throw (TypeError "Cannot read properties of undefined (reading 'name')")
           end
         else ret tt) |}.

(** The world right after the module has been evaluated, for a host in
    state [s]. *)
Definition loaded {S : Type} (proto : list string) (s : S) : World S :=
  {| module_components := components proto; hostState := s |}.

End Dist.

(** ** The compiled render functions against an explicit runtime *)

Module Runtime.
Section WithRuntime.
Context {R : Type}.

(** The two operations the bundle imports from [vue], acting on the
    runtime's own state [R] (the renderer's block bookkeeping). Their code is
    not part of this library. *)
Record VueRuntime : Type := mkRuntime {
  rt_openBlock : R -> R;
  rt_createElementBlock : string -> option Props -> R -> VNode * R
}.

(** [render$1]: [(openBlock(), createElementBlock("input", _hoisted_1))] *)
Definition render_1 (rt : VueRuntime)
    (_ctx _cache props setup data options : JSValue) (r : R) : VNode * R :=
  rt_createElementBlock rt "input" (Some Dist._hoisted_1) (rt_openBlock rt r).

(** [render]: [(openBlock(), createElementBlock("textarea"))] *)
Definition render (rt : VueRuntime)
    (_ctx _cache props setup data options : JSValue) (r : R) : VNode * R :=
  rt_createElementBlock rt "textarea" None (rt_openBlock rt r).

(** [createElementBlock] returns the element it is asked for. *)
Definition builds_elements (rt : VueRuntime) : Prop :=
  forall type props r, fst (rt_createElementBlock rt type props r) = Element type props [].

(** Opening a block and creating its element leaves the bookkeeping as it
    was. *)
Definition balanced (rt : VueRuntime) : Prop :=
  forall type props r,
    snd (rt_createElementBlock rt type props (rt_openBlock rt r)) = r.

End WithRuntime.
Arguments VueRuntime R : clear implicits.

(** A runtime without bookkeeping. *)
Definition detached : VueRuntime unit :=
  {| rt_openBlock := fun r => r;
     rt_createElementBlock := fun type props r => (Element type props [], r) |}.


End Runtime.

(** ** The sources: [src/components.js] and [src/index.js] *)

Module Src.

Section Imports.

(** The default exports of [./InputText.vue] and [./InputTextarea.vue], as
    the module loader hands them over. *)
Variables InputText InputTextarea : ComponentDef.

(** [export default { InputTextarea, InputText }] *)
Definition components (proto : list string) : JSObject ComponentDef :=
  object_literal proto [("InputTextarea", InputTextarea); ("InputText", InputText)].

Definition loaded {S : Type} (proto : list string) (s : S) : World S :=
  {| module_components := components proto; hostState := s |}.

End Imports.

Definition plugin {S : Type} : PluginObject S :=
  {| install := fun Vue =>
       for_in read_components (fun prop =>
         cs <- read_components ;;
         guard <- call_hasOwnProperty cs prop ;;
         if guard then
           cs' <- read_components ;;
           match get cs' prop with
           | Some component => call_component Vue (name component) component
           | None => throw (TypeError "Cannot read properties of undefined (reading 'name')")
           end
         else ret tt) |}.

End Src.

(** ** The two single-file components the sources import *)

Module SrcVue.

(** Modelled from the spec: the default export of [src/InputText.vue], which
    is missing from src/. The spec gives a component definition a name and a
    render procedure producing a single static node, and gives this one as
    name "InputText" with a render yielding an [input] of type text. *)
Definition InputText : ComponentDef :=
  {| name := "InputText";
     render := Some (fun _ _ _ _ _ _ => Element "input" (Some [("type", "text")]) []);
     __file := None |}.

(** Modelled from the spec: the default export of [src/InputTextarea.vue],
    which is missing from src/. The spec gives it as name "InputTextarea" with
    a render yielding a [textarea]. *)
Definition InputTextarea : ComponentDef :=
  {| name := "InputTextarea";
     render := Some (fun _ _ _ _ _ _ => Element "textarea" None []);
     __file := None |}.

(** The source registry over these two imports. *)
Definition components (proto : list string) : JSObject ComponentDef :=
  Src.components InputText InputTextarea proto.

Definition loaded {S : Type} (proto : list string) (s : S) : World S :=
  Src.loaded InputText InputTextarea proto s.

End SrcVue.

(** ** Comparing definitions and calls by structure *)

Module Structural.




End Structural.

(** ** Hosts used to exercise the installer *)

Module Hosts.

(** A mock whose state is the list of [(name, definition)] pairs it was
    called with; it never throws. *)
Definition hostMock : Host (list (string * ComponentDef)) :=
  {| component := fun n d calls => (Normal tt, calls ++ [(n, d)]) |}.

(** A host that rejects a name it already holds. *)
Definition strictHost : Host (list string) :=
  {| component := fun n _ names =>
       if existsb (String.eqb n) names
       then (Throw (ThrownValue (JSString n)), names)
       else (Normal tt, names ++ [n]) |}.

(** A host that rejects one given name and accepts every other. *)
Definition rejecting (bad : string) : Host (list string) :=
  {| component := fun n _ names =>
       if String.eqb n bad
       then (Throw (ThrownValue (JSString n)), names)
       else (Normal tt, names ++ [n]) |}.

End Hosts.

(** ** Other registries used to exercise the installer *)

Module Samples.

Definition inputNumber : ComponentDef :=
  {| name := "InputNumber"; render := None; __file := None |}.

(** A registry whose only key differs from the name of what it holds. *)
Definition rekeyed : JSObject ComponentDef :=
  object_literal [] [("Field", Dist.script_1)].

(** The shipped registry with a third component after the two. *)
Definition three : JSObject ComponentDef :=
  object_literal []
    [("InputTextarea", Dist.script); ("InputText", Dist.script_1);
     ("InputNumber", inputNumber)].

(** The record of a call for InputText that the host answered by throwing
    the name back. *)
Definition rejected_InputText : CallRecord :=
  {| call_name := "InputText"; call_def := Dist.script_1;
     call_result := Throw (ThrownValue (JSString "InputText")) |}.

End Samples.

(** ** Registries at the edges *)

Module Edge.

(** A registry with a component stored under the key [hasOwnProperty]. *)
Definition shadowing : JSObject ComponentDef :=
  object_literal [] [("InputText", Dist.script_1); ("hasOwnProperty", Dist.script)].

(** An empty object literal in an environment whose [Object.prototype]
    carries an enumerable key. *)
Definition empty_polluted : JSObject ComponentDef :=
  object_literal ["extend"] [].

(** Two keys holding definitions that declare the same name. *)
Definition twins : JSObject ComponentDef :=
  object_literal [] [("First", Dist.script_1); ("Second", Dist.script_1)].

(** A registry object given by its own entries and inherited keys, with a
    host in state [s]. *)
Definition world_of {S : Type} (entries : list (string * ComponentDef))
    (proto : list string) (s : S) : World S :=
  {| module_components := {| own := entries; inherited := proto |}; hostState := s |}.

End Edge.

(** ** Hosts that reach the registry *)

Module Open.
Section WithState.
Context {S : Type}.

(** A host handle without the confinement of [Host]. Its [component] method
    is foreign code: it is handed the registry's own definition objects and
    may have imported the registry that [components.js] exports, so a call may
    change the object bound to [components] as well as the host's state. *)
Record OpenHost : Type := mkOpenHost {
  component_in : string -> ComponentDef -> World S -> Completion unit * World S
}.

(** [Vue.component(name, definition)] on such a host. *)
Definition call_component (Vue : OpenHost) (n : string) (d : ComponentDef) : M S unit :=
  fun w =>
    let '(r, w') := component_in Vue n d w in
    {| result := r; world := w';
       trace := [ {| call_name := n; call_def := d; call_result := r |} ] |}.

(** [plugin.install] of [src/index.js], run against such a host. The keys
    are those the object has when the loop starts; the guard and the read in
    the body see the object as it is by then, so a key removed meanwhile is
    skipped. *)
Definition install (Vue : OpenHost) : M S unit :=
  for_in read_components (fun prop =>
    cs <- read_components ;;
    guard <- call_hasOwnProperty cs prop ;;
    if guard then
      cs' <- read_components ;;
      match get cs' prop with
      | Some component => call_component Vue (name component) component
      | None => throw (TypeError "Cannot read properties of undefined (reading 'name')")
      end
    else ret tt).

(** A host confined to its own state, seen as an open one. *)
Definition confine (Vue : Host S) : OpenHost :=
  {| component_in := fun n d w =>
       let '(r, s') := component Vue n d (hostState w) in
       (r, {| module_components := module_components w; hostState := s' |}) |}.

(** The world reached by performing recorded calls one after another. *)
Definition replay (Vue : OpenHost) (calls : list CallRecord) (w : World S) : World S :=
  fold_left (fun w c => snd (component_in Vue (call_name c) (call_def c) w)) calls w.




End WithState.
Arguments OpenHost S : clear implicits.



End Open.

(** ** Reference behaviour of the loop *)

Section Reference.
Context {S : Type}.
Variable Vue : Host S.
Implicit Types (w : World S) (d : ComponentDef) (ds : list ComponentDef).

(** The pair a definition is registered as. *)
Definition registration d : string * ComponentDef := (name d, d).

(** Reference behaviour: call [Vue.component] for each definition of a list
    in turn, up to the first call that throws. *)
Fixpoint register_in_turn ds : M S unit :=
  match ds with
  | [] => ret tt
  | d :: ds' => call_component Vue (name d) d ;; register_in_turn ds'
  end.

(** The host state reached by performing recorded calls one after another. *)
Definition replay (calls : list CallRecord) (s : S) : S :=
  fold_left (fun s c => snd (component Vue (call_name c) (call_def c) s)) calls s.

(** The host returns normally whenever it is handed one of [ds] under its
    declared name. *)
Definition accepts ds : Prop :=
  forall d s, In d ds -> fst (component Vue (name d) d s) = Normal tt.

Definition loop_body (prop : string) : M S unit :=
  cs <- read_components ;;
  guard <- call_hasOwnProperty cs prop ;;
  if guard then
    cs' <- read_components ;;
    match get cs' prop with
    | Some component => call_component Vue (name component) component
    | None => throw (TypeError "Cannot read properties of undefined (reading 'name')")
    end
  else ret tt.

End Reference.

(** * Properties *)

(** ** Plain objects *)

Section ObjectFacts.
Context {V : Type}.
Implicit Types (o : JSObject V) (l : list (string * V)) (k : string).

Lemma lookup_In l k v : lookup k l = Some v -> In (k, v) l.
Proof.
  induction l as [|[k' v'] l IH]; simpl; [discriminate|].
  destruct (String.eqb_spec k k') as [->|_].
  - intros [= ->]; now left.
  - intros H; right; auto.
Qed.

Lemma lookup_fresh l k : ~ In k (map fst l) -> lookup k l = None.
Proof.
  induction l as [|[k' v'] l IH]; simpl; [reflexivity|].
  intros H. destruct (String.eqb_spec k k') as [->|_].
  - exfalso; apply H; now left.
  - apply IH; intros Hin; apply H; now right.
Qed.

Lemma lookup_NoDup l k v : NoDup (map fst l) -> In (k, v) l -> lookup k l = Some v.
Proof.
  induction l as [|[k' v'] l IH]; simpl; [intros _ []|].
  intros Hnd [[= <- <-]|Hin].
  - now rewrite String.eqb_refl.
  - inversion Hnd as [|? ? Hk' Hnd']; subst.
    destruct (String.eqb_spec k k') as [->|_]; [|auto].
    exfalso; apply Hk'. apply (in_map fst) in Hin; exact Hin.
Qed.

Lemma hasOwn_In o k : hasOwn o k = true <-> In k (own_keys o).
Proof.
  unfold hasOwn; rewrite existsb_exists; split.
  - intros (k' & Hin & Heq); apply String.eqb_eq in Heq; now subst.
  - intros Hin; exists k; split; [exact Hin|apply String.eqb_refl].
Qed.

Lemma get_of_absent o k : hasOwn o k = false -> get o k = None.
Proof.
  intros H; apply lookup_fresh; intros Hin.
  apply hasOwn_In in Hin; congruence.
Qed.

Lemma get_of_own o k : hasOwn o k = true -> exists v, get o k = Some v.
Proof.
  intros H; apply hasOwn_In in H; unfold own_keys, get in *.
  induction (own o) as [|[k' v'] l IH]; simpl in *; [contradiction|].
  destruct (String.eqb_spec k k') as [->|Hne]; [eauto|].
  destruct H as [H|H]; [congruence|auto].
Qed.

Lemma visited_In o v : In v (visited o) -> exists k, In (k, v) (own o).
Proof.
  unfold visited; rewrite in_flat_map; intros (k & _ & Hin).
  unfold pick in Hin; destruct (get o k) as [v'|] eqn:Hget; [|contradiction].
  destruct Hin as [->|[]]; exists k; now apply lookup_In.
Qed.

Lemma pick_along o l :
  (forall k v, In (k, v) l -> get o k = Some v) ->
  flat_map (pick o) (map fst l) = map snd l.
Proof.
  induction l as [|[k v] l IH]; simpl; intros Hsub; [reflexivity|].
  unfold pick at 1; rewrite (Hsub k v) by now left.
  simpl; f_equal; apply IH; intros; apply Hsub; now right.
Qed.

Lemma visited_well_formed o : well_formed o -> visited o = own_values o.
Proof.
  intros Hnd; apply pick_along; intros k v Hin; now apply lookup_NoDup.
Qed.

Lemma inherited_not_picked o :
  flat_map (pick o) (filter (fun k => negb (hasOwn o k)) (inherited o)) = [].
Proof.
  induction (inherited o) as [|k ks IH]; simpl; [reflexivity|].
  destruct (hasOwn o k) eqn:Hk; simpl; [exact IH|].
  unfold pick at 1; now rewrite get_of_absent.
Qed.

End ObjectFacts.

(** ** The monad *)

Section MonadFacts.
Context {S : Type}.

Lemma outcome_eta A (o : Outcome S A) :
  {| result := result o; world := world o; trace := trace o |} = o.
Proof. now destruct o. Qed.

Lemma bind_ret A B (a : A) (f : A -> M S B) w : bind (ret a) f w = f a w.
Proof. unfold bind, ret; simpl; apply outcome_eta. Qed.

Lemma bind_throw A B e (f : A -> M S B) w : bind (throw e) f w = throw e w.
Proof. reflexivity. Qed.

Lemma bind_read B (f : JSObject ComponentDef -> M S B) w :
  bind read_components f w = f (module_components w) w.
Proof. unfold read_components; apply bind_ret. Qed.

Lemma bind_skip (m : M S unit) w : bind m (fun _ => ret tt) w = m w.
Proof.
  unfold bind, ret; destruct (m w) as [[[]|e] w' t]; simpl; now rewrite ?app_nil_r.
Qed.

Lemma bind_same_start A B (m m' : M S A) (f : A -> M S B) w :
  m w = m' w -> bind m f w = bind m' f w.
Proof. unfold bind; now intros ->. Qed.

End MonadFacts.

(** ** The loop of [install] *)

Section InstallerFacts.
Context {S : Type}.
Variable Vue : Host S.
Implicit Types (w : World S) (d : ComponentDef) (ds : list ComponentDef).

Lemma install_unfold w :
  install Src.plugin Vue w = for_each (for_in_keys (module_components w)) (loop_body Vue) w.
Proof. unfold install, Src.plugin, for_in; now rewrite bind_read. Qed.

Lemma call_component_keeps_binding n d w :
  module_components (world (call_component Vue n d w)) = module_components w.
Proof. unfold call_component; now destruct (component Vue n d (hostState w)). Qed.

Lemma loop_body_guarded w prop :
  hasOwn (module_components w) "hasOwnProperty" = false ->
  loop_body Vue prop w = register_in_turn Vue (pick (module_components w) prop) w.
Proof.
  intros Hcall; unfold loop_body, call_hasOwnProperty.
  rewrite bind_read, Hcall, bind_ret; unfold pick.
  destruct (hasOwn (module_components w) prop) eqn:Hown.
  - rewrite bind_read. destruct (get_of_own _ _ Hown) as [d ->]; simpl.
    symmetry; apply bind_skip.
  - now rewrite (get_of_absent _ _ Hown).
Qed.

Lemma loop_body_shadowed w prop :
  hasOwn (module_components w) "hasOwnProperty" = true ->
  loop_body Vue prop w = throw (TypeError "components.hasOwnProperty is not a function") w.
Proof.
  intros Hcall; unfold loop_body, call_hasOwnProperty.
  now rewrite bind_read, Hcall, bind_throw.
Qed.

Lemma for_each_guarded keys w :
  hasOwn (module_components w) "hasOwnProperty" = false ->
  for_each keys (loop_body Vue) w =
  register_in_turn Vue (flat_map (pick (module_components w)) keys) w.
Proof.
  revert w; induction keys as [|k ks IH]; intros w Hcall; simpl; [reflexivity|].
  rewrite (bind_same_start _ _ _ _ (loop_body_guarded w k Hcall)).
  destruct (get (module_components w) k) as [d|] eqn:Hget.
  - assert (Hp : pick (module_components w) k = [d]) by (unfold pick; now rewrite Hget).
    rewrite Hp; simpl.
    rewrite (bind_same_start _ _ _ _ (bind_skip _ w)). unfold bind.
    pose proof (call_component_keeps_binding (name d) d w) as Hkeep.
    destruct (call_component Vue (name d) d w) as [[[]|e] w' t]; simpl in *; [|reflexivity].
    rewrite IH by (now rewrite Hkeep). now rewrite Hkeep.
  - assert (Hp : pick (module_components w) k = []) by (unfold pick; now rewrite Hget).
    rewrite Hp; simpl. rewrite bind_ret. now apply IH.
Qed.

(** With [hasOwnProperty] callable, [install] registers, in enumeration
    order, what each own key holds. *)
Lemma install_guarded w :
  hasOwn (module_components w) "hasOwnProperty" = false ->
  install Src.plugin Vue w = register_in_turn Vue (visited (module_components w)) w.
Proof.
  intros Hcall; rewrite install_unfold, for_each_guarded by exact Hcall.
  unfold for_in_keys; rewrite flat_map_app, inherited_not_picked, app_nil_r.
  reflexivity.
Qed.

(** With an own property named [hasOwnProperty], the guard itself throws at
    the first key, before any call of the host. *)
Lemma install_shadowed w :
  hasOwn (module_components w) "hasOwnProperty" = true ->
  install Src.plugin Vue w =
  throw (TypeError "components.hasOwnProperty is not a function") w.
Proof.
  intros Hcall; rewrite install_unfold; unfold for_in_keys, own_keys.
  destruct (own (module_components w)) as [|[k v] l] eqn:Hown.
  - unfold hasOwn, own_keys in Hcall; rewrite Hown in Hcall; discriminate.
  - simpl. rewrite (bind_same_start _ _ _ _ (loop_body_shadowed w k Hcall)).
    apply bind_throw.
Qed.

(** *** The reference loop, call by call *)

Ltac first_call d w H :=
  simpl; unfold bind, call_component;
  destruct (component Vue (name d) d (hostState w)) as [[[]|?e] ?s'] eqn:H; simpl.


Lemma register_trace_prefix ds w :
  let t := trace (register_in_turn Vue ds w) in
  map call_args t = firstn (length t) (map registration ds).
Proof.
  revert w; induction ds as [|d ds IH]; intros w; [reflexivity|].
  first_call d w Hc; [|reflexivity].
  unfold call_args at 1; simpl; unfold registration at 1; f_equal. apply IH.
Qed.

Lemma register_returned ds w :
  result (register_in_turn Vue ds w) = Normal tt ->
  length (trace (register_in_turn Vue ds w)) = length ds /\
  Forall returned (trace (register_in_turn Vue ds w)).
Proof.
  revert w; induction ds as [|d ds IH]; intros w; [now split|].
  first_call d w Hc; [|discriminate].
  intros Hres; destruct (IH _ Hres) as [Hlen Hall]; split.
  - now rewrite Hlen.
  - constructor; [reflexivity|exact Hall].
Qed.

Lemma register_thrown ds w e :
  result (register_in_turn Vue ds w) = Throw e ->
  exists pre c,
    trace (register_in_turn Vue ds w) = pre ++ [c] /\
    call_result c = Throw e /\ Forall returned pre.
Proof.
  revert w; induction ds as [|d ds IH]; intros w; [discriminate|].
  first_call d w Hc.
  - intros Hres; destruct (IH _ Hres) as (pre & c & Ht & Hc' & Hpre).
    exists ({| call_name := name d; call_def := d; call_result := Normal tt |} :: pre), c.
    rewrite Ht; repeat split; [exact Hc'|]. constructor; [reflexivity|exact Hpre].
  - intros [= ->]. eexists [], _; repeat split. constructor.
Qed.

Lemma register_accepted ds w :
  accepts Vue ds -> result (register_in_turn Vue ds w) = Normal tt.
Proof.
  revert w; induction ds as [|d ds IH]; intros w Hacc; [reflexivity|].
  pose proof (Hacc d (hostState w) (or_introl eq_refl)) as Hd.
  first_call d w Hc; [|discriminate].
  apply IH; intros d' s Hin; apply Hacc; now right.
Qed.


Lemma register_records_host ds w c :
  In c (trace (register_in_turn Vue ds w)) ->
  exists s, call_result c = fst (component Vue (call_name c) (call_def c) s).
Proof.
  revert w; induction ds as [|d ds IH]; intros w; [intros []|].
  first_call d w Hc.
  - intros [<-|Hin]; [|eauto]. exists (hostState w); simpl; now rewrite Hc.
  - intros [<-|[]]. exists (hostState w); simpl; now rewrite Hc.
Qed.


(** *** The same facts for [install], on any world *)


Lemma install_trace_prefix w :
  let t := trace (install Src.plugin Vue w) in
  map call_args t = firstn (length t) (map registration (visited (module_components w))).
Proof.
  destruct (hasOwn (module_components w) "hasOwnProperty") eqn:Hcall.
  - now rewrite install_shadowed.
  - rewrite install_guarded by exact Hcall. apply register_trace_prefix.
Qed.

Lemma install_returned w :
  result (install Src.plugin Vue w) = Normal tt ->
  length (trace (install Src.plugin Vue w)) = length (visited (module_components w)) /\
  Forall returned (trace (install Src.plugin Vue w)).
Proof.
  destruct (hasOwn (module_components w) "hasOwnProperty") eqn:Hcall.
  - rewrite install_shadowed by exact Hcall. discriminate.
  - rewrite install_guarded by exact Hcall. apply register_returned.
Qed.

Lemma install_thrown w e :
  result (install Src.plugin Vue w) = Throw e ->
  trace (install Src.plugin Vue w) = [] \/
  exists pre c,
    trace (install Src.plugin Vue w) = pre ++ [c] /\
    call_result c = Throw e /\ Forall returned pre.
Proof.
  destruct (hasOwn (module_components w) "hasOwnProperty") eqn:Hcall.
  - rewrite install_shadowed by exact Hcall. now left.
  - rewrite install_guarded by exact Hcall. intros H; right; now apply register_thrown.
Qed.


Lemma install_records_host w c :
  In c (trace (install Src.plugin Vue w)) ->
  exists s, call_result c = fst (component Vue (call_name c) (call_def c) s).
Proof.
  destruct (hasOwn (module_components w) "hasOwnProperty") eqn:Hcall.
  - rewrite install_shadowed by exact Hcall. intros [].
  - rewrite install_guarded by exact Hcall. apply register_records_host.
Qed.

(** A call that threw is the last one made, and its thrown value is the
    result of [install]. *)
Lemma install_thrown_call w i c e :
  nth_error (trace (install Src.plugin Vue w)) i = Some c ->
  call_result c = Throw e ->
  result (install Src.plugin Vue w) = Throw e /\
  length (trace (install Src.plugin Vue w)) = i + 1 /\
  Forall returned (firstn i (trace (install Src.plugin Vue w))).
Proof.
  intros Hnth Hc.
  destruct (result (install Src.plugin Vue w)) as [[]|e'] eqn:Hres.
  - destruct (install_returned w Hres) as [_ Hall].
    rewrite Forall_forall in Hall. apply nth_error_In in Hnth.
    specialize (Hall _ Hnth); unfold returned in Hall; congruence.
  - destruct (install_thrown w Hres) as [Hnil|(pre & c' & Ht & Hc' & Hpre)].
    + rewrite Hnil in Hnth; destruct i; discriminate.
    + rewrite Ht in *. destruct (Nat.lt_trichotomy i (length pre)) as [Hlt|[Heq|Hgt]].
      * rewrite nth_error_app1 in Hnth by exact Hlt.
        rewrite Forall_forall in Hpre. apply nth_error_In in Hnth.
        specialize (Hpre _ Hnth); unfold returned in Hpre; congruence.
      * subst i. rewrite nth_error_app2, Nat.sub_diag in Hnth by lia.
        injection Hnth as <-. split; [congruence|]. split.
        -- rewrite length_app; simpl; lia.
        -- rewrite firstn_app, Nat.sub_diag, firstn_all; simpl. now rewrite app_nil_r.
      * rewrite nth_error_app2 in Hnth by lia.
        destruct (i - length pre) as [|[|n]] eqn:Hd; simpl in Hnth; try discriminate. lia.
Qed.

End InstallerFacts.

(** ** Consequences used by several results *)

Section Consequences.
Context {S : Type}.
Variable Vue : Host S.
Implicit Types (w : World S) (d : ComponentDef).

Lemma plugins_agree : @Dist.plugin S = @Src.plugin S.
Proof. reflexivity. Qed.

Lemma install_complete w :
  well_formed (module_components w) ->
  result (install Src.plugin Vue w) = Normal tt ->
  map call_args (trace (install Src.plugin Vue w)) =
  map registration (own_values (module_components w)).
Proof.
  intros Hwf Hres.
  destruct (install_returned Vue w Hres) as [Hlen _].
  pose proof (install_trace_prefix Vue w) as Hpre; cbv zeta in Hpre.
  rewrite Hpre, Hlen, <- (length_map registration), firstn_all.
  now rewrite visited_well_formed.
Qed.

Lemma install_accepted w :
  well_formed (module_components w) ->
  hasOwn (module_components w) "hasOwnProperty" = false ->
  accepts Vue (own_values (module_components w)) ->
  result (install Src.plugin Vue w) = Normal tt.
Proof.
  intros Hwf Hcall Hacc. rewrite install_guarded, visited_well_formed by assumption.
  now apply register_accepted.
Qed.

Lemma call_names_of_args (t : list CallRecord) :
  map call_name t = map fst (map call_args t).
Proof. now rewrite map_map. Qed.

Lemma names_of_registrations (ds : list ComponentDef) :
  map fst (map registration ds) = map name ds.
Proof. now rewrite map_map. Qed.


End Consequences.

(** ** The shipped registry *)

Lemma shipped_own proto :
  own (Dist.components proto) =
  [("InputTextarea", Dist.script); ("InputText", Dist.script_1)].
Proof. reflexivity. Qed.

Lemma shipped_well_formed proto : well_formed (Dist.components proto).
Proof.
  unfold well_formed, own_keys; rewrite shipped_own; simpl.
  repeat constructor; simpl; intuition discriminate.
Qed.

Lemma shipped_callable proto : hasOwn (Dist.components proto) "hasOwnProperty" = false.
Proof. reflexivity. Qed.

Lemma shipped_names_unique proto :
  NoDup (map name (own_values (Dist.components proto))).
Proof.
  unfold own_values; rewrite shipped_own; simpl.
  repeat constructor; simpl; intuition discriminate.
Qed.

Lemma hostMock_accepts ds : accepts Hosts.hostMock ds.
Proof. intros d s _; reflexivity. Qed.

(** ** Hosts that reach the registry *)

Section OpenFacts.
Context {S : Type}.
Variable Vue : Open.OpenHost S.











End OpenFacts.

Section ConfinedFacts.
Context {S : Type}.
Variable Vue : Host S.

Lemma bind_pointwise A B (m m' : M S A) (f f' : A -> M S B) w :
  m w = m' w -> (forall a w', f a w' = f' a w') -> bind m f w = bind m' f' w.
Proof.
  intros Hm Hf; unfold bind; rewrite Hm.
  destruct (result (m' w)); [now rewrite Hf|reflexivity].
Qed.

Lemma confined_call n d w :
  Open.call_component (Open.confine Vue) n d w = call_component Vue n d w.
Proof.
  unfold Open.call_component, call_component, Open.confine; simpl.
  now destruct (component Vue n d (hostState w)).
Qed.


(** On a host confined to its own state the two readings of [install]
    agree. *)
Lemma open_install_confined w :
  Open.install (Open.confine Vue) w = install Src.plugin Vue w.
Proof.
  unfold Open.install, install, Src.plugin, for_in.
  apply bind_pointwise; [reflexivity|intros o w'].
  revert w'; induction (for_in_keys o) as [|k ks IH]; intros w'; [reflexivity|].
  simpl. apply bind_pointwise; [|intros _ w''; apply IH].
  apply bind_pointwise; [reflexivity|intros cs w1].
  apply bind_pointwise; [reflexivity|intros [|] w2; [|reflexivity]].
  apply bind_pointwise; [reflexivity|intros cs' w3].
  destruct (get cs' k); [apply confined_call|reflexivity].
Qed.

End ConfinedFacts.

(** * Results *)

Unset Implicit Arguments.




(** C2: on the shipped registry, whose two entries are InputText (an
    [input] node of type text) and InputTextarea (a [textarea] node),
    [install(hostMock)] returns normally and leaves the mock with exactly the
    calls ("InputTextarea", InputTextarea definition) and ("InputText",
    InputText definition): each once, no other call, whatever enumerable keys
    the prototype chain carries. *)
Theorem install_on_hostMock (proto : list string) :
  let o := install Dist.plugin Hosts.hostMock (Dist.loaded proto []) in
  own (Dist.components proto) =
    [("InputTextarea", Dist.script); ("InputText", Dist.script_1)] /\
  name Dist.script_1 = "InputText" /\
  call_render Dist.script_1 = Some (Element "input" (Some [("type", "text")]) []) /\
  name Dist.script = "InputTextarea" /\
  call_render Dist.script = Some (Element "textarea" None []) /\
  result o = Normal tt /\
  hostState (world o) = [("InputTextarea", Dist.script); ("InputText", Dist.script_1)] /\
  Permutation (hostState (world o))
    [("InputText", Dist.script_1); ("InputTextarea", Dist.script)] /\
  map call_args (trace o) = hostState (world o).
Proof.
  intros o.
  assert (Ho : o = register_in_turn Hosts.hostMock
                     [Dist.script; Dist.script_1] (Dist.loaded proto [])).
  { unfold o; rewrite plugins_agree.
    rewrite install_guarded by apply shipped_callable. reflexivity. }
  rewrite Ho. repeat split; try reflexivity.
  simpl. apply perm_swap.
Qed.

(** C3: the call [install] makes for a registry entry passes the
    definition's own [name] field and the definition itself; the key the
    entry is stored under plays no part, so where key and name differ the
    registration is under the name. *)
Theorem install_registers_under_declared_name
  {S : Type} (Vue : Host S) (w : World S) (i : nat)
  (k : string) (d : ComponentDef) (c : CallRecord)
  (Hwf : well_formed (module_components w))
  (Hentry : nth_error (own (module_components w)) i = Some (k, d))
  (Hcall : nth_error (trace (install Src.plugin Vue w)) i = Some c) :
  call_name c = name d /\ call_def c = d /\ (k <> name d -> call_name c <> k).
Proof.
  pose proof (install_trace_prefix Vue w) as Hpre; cbv zeta in Hpre.
  rewrite visited_well_formed in Hpre by exact Hwf.
  assert (Hi : i < length (trace (install Src.plugin Vue w)))
    by (apply nth_error_Some; congruence).
  assert (Hargs : nth_error (map call_args (trace (install Src.plugin Vue w))) i
                  = Some (call_args c)) by now apply map_nth_error.
  rewrite Hpre, nth_error_firstn in Hargs.
  apply Nat.ltb_lt in Hi; rewrite Hi in Hargs.
  unfold own_values in Hargs; rewrite map_map in Hargs.
  rewrite (map_nth_error _ _ _ Hentry) in Hargs; simpl in Hargs.
  unfold registration, call_args in Hargs; injection Hargs as Hn Hd.
  repeat split; congruence.
Qed.

Lemma install_registers_under_declared_name_witness :
  (well_formed Samples.rekeyed /\
   nth_error (own Samples.rekeyed) 0 = Some ("Field", Dist.script_1) /\
   nth_error (trace (install Src.plugin Hosts.hostMock
                       {| module_components := Samples.rekeyed; hostState := [] |})) 0
   = Some {| call_name := "InputText"; call_def := Dist.script_1;
             call_result := Normal tt |}) /\
  "InputText" <> "Field".
Proof.
  assert (Hwf : well_formed Samples.rekeyed)
    by (repeat constructor; simpl; intuition discriminate).
  split; [split; [exact Hwf|split; reflexivity]|].
  refine (proj2 (proj2 (install_registers_under_declared_name
            Hosts.hostMock {| module_components := Samples.rekeyed; hostState := [] |}
            0 "Field" Dist.script_1 _ Hwf eq_refl eq_refl)) _).
  simpl; discriminate.
Defined.

(** C4: a throw by the host's register operation during [install] is what
    [install] itself completes with: the very value the host threw reaches the
    caller, untranslated, and the throwing call is the last call made. *)
Theorem install_propagates_host_failure
  {S : Type} (Vue : Host S) (w : World S) (c : CallRecord) (e : Thrown)
  (Hmade : In c (trace (install Src.plugin Vue w)))
  (Hthrew : call_result c = Throw e) :
  result (install Src.plugin Vue w) = Throw e /\
  (exists s, fst (component Vue (call_name c) (call_def c) s) = Throw e) /\
  (exists pre, trace (install Src.plugin Vue w) = pre ++ [c] /\ Forall returned pre).
Proof.
  destruct (In_nth_error _ _ Hmade) as [i Hi].
  destruct (install_thrown_call Vue w i Hi Hthrew) as (Hres & Hlen & Hpre).
  split; [exact Hres|]. split.
  { destruct (install_records_host Vue w c Hmade) as [s Hs]. exists s; congruence. }
  exists (firstn i (trace (install Src.plugin Vue w))); split; [|exact Hpre].
  rewrite <- (firstn_skipn i (trace (install Src.plugin Vue w))) at 1; f_equal.
  pose proof (nth_error_split _ _ Hi) as (l1 & l2 & Heq & Hl1).
  rewrite Heq in Hlen |- *. rewrite length_app in Hlen; simpl in Hlen.
  destruct l2; [|simpl in Hlen; lia].
  rewrite <- Hl1, skipn_app, skipn_all, Nat.sub_diag; reflexivity.
Qed.

Lemma install_propagates_host_failure_witness :
  (In Samples.rejected_InputText
      (trace (install Src.plugin (Hosts.rejecting "InputText") (Dist.loaded [] []))) /\
   call_result Samples.rejected_InputText = Throw (ThrownValue (JSString "InputText"))) /\
  result (install Src.plugin (Hosts.rejecting "InputText") (Dist.loaded [] []))
  = Throw (ThrownValue (JSString "InputText")).
Proof.
  assert (Hin : In Samples.rejected_InputText
                   (trace (install Src.plugin (Hosts.rejecting "InputText")
                             (Dist.loaded [] []))))
    by (right; left; reflexivity).
  split; [split; [exact Hin|reflexivity]|].
  exact (proj1 (install_propagates_host_failure
                  (Hosts.rejecting "InputText") (Dist.loaded [] []) _ _ Hin eq_refl)).
Defined.

Lemma detached_runtime_is_balanced :
  Runtime.builds_elements Runtime.detached /\ Runtime.balanced Runtime.detached.
Proof. split; intros type props r; reflexivity. Qed.










(** C8: when a call of the host's register operation throws, [install]
    stops there: it completes with the thrown value, the calls made are those
    for the entries up to and including the failing one, in enumeration order,
    every earlier call having returned, and no call is made for any later
    entry. *)
Theorem install_aborts_at_first_throw
  {S : Type} (Vue : Host S) (w : World S) (i : nat) (c : CallRecord) (e : Thrown)
  (Hwf : well_formed (module_components w))
  (Hcall : nth_error (trace (install Src.plugin Vue w)) i = Some c)
  (Hthrew : call_result c = Throw e) :
  let o := install Src.plugin Vue w in
  result o = Throw e /\
  length (trace o) = i + 1 /\
  map call_args (trace o) =
    firstn (i + 1) (map registration (own_values (module_components w))) /\
  Forall returned (firstn i (trace o)) /\
  (NoDup (map name (own_values (module_components w))) ->
   forall j d, i < j -> nth_error (own_values (module_components w)) j = Some d ->
     ~ In (name d) (map call_name (trace o))).
Proof.
  intros o.
  destruct (install_thrown_call Vue w i Hcall Hthrew) as (Hres & Hlen & Hpre).
  assert (Hargs : map call_args (trace o) =
                  firstn (i + 1) (map registration (own_values (module_components w)))).
  { pose proof (install_trace_prefix Vue w) as H; cbv zeta in H.
    now rewrite visited_well_formed, Hlen in H. }
  repeat split; try assumption.
  intros Hnames j d Hij Hj Hin.
  rewrite call_names_of_args, Hargs, firstn_map, names_of_registrations in Hin.
  rewrite <- firstn_map in Hin.
  destruct (In_nth_error _ _ Hin) as [j' Hj'].
  rewrite nth_error_firstn in Hj'.
  destruct (Nat.ltb j' (i + 1)) eqn:Hlt; [|discriminate].
  apply Nat.ltb_lt in Hlt.
  assert (Hjn : nth_error (map name (own_values (module_components w))) j = Some (name d))
    by now apply map_nth_error.
  assert (j' = j); [|lia].
  apply (proj1 (NoDup_nth_error _) Hnames).
  - apply nth_error_Some; congruence.
  - congruence.
Qed.

Lemma install_aborts_at_first_throw_witness :
  (well_formed Samples.three /\
   nth_error (trace (install Src.plugin (Hosts.rejecting "InputText")
                       {| module_components := Samples.three; hostState := [] |})) 1
   = Some Samples.rejected_InputText /\
   call_result Samples.rejected_InputText = Throw (ThrownValue (JSString "InputText"))) /\
  (result (install Src.plugin (Hosts.rejecting "InputText")
             {| module_components := Samples.three; hostState := [] |})
   = Throw (ThrownValue (JSString "InputText")) /\
   length (trace (install Src.plugin (Hosts.rejecting "InputText")
                    {| module_components := Samples.three; hostState := [] |})) = 2).
Proof.
  assert (Hwf : well_formed Samples.three)
    by (repeat constructor; simpl; intuition discriminate).
  pose proof (install_aborts_at_first_throw (Hosts.rejecting "InputText")
                {| module_components := Samples.three; hostState := [] |}
                1 Samples.rejected_InputText _ Hwf eq_refl eq_refl) as H.
  split; [split; [exact Hwf|split; reflexivity]|].
  split; [exact (proj1 H)|exact (proj1 (proj2 H))].
Defined.

(** C9: in the shipped registry every key equals the declared name of the
    definition stored under it ("InputText" holds the definition named
    "InputText", "InputTextarea" the one named "InputTextarea"), so the pairs
    registered by declared name are the registry's own entries, and the
    declared names are pairwise distinct. The registry of [src/components.js]
    over the same two definitions is the same object. *)
Theorem shipped_keys_are_declared_names (proto : list string) :
  Forall (fun kd => fst kd = name (snd kd)) (own (Dist.components proto)) /\
  get (Dist.components proto) "InputText" = Some Dist.script_1 /\
  name Dist.script_1 = "InputText" /\
  get (Dist.components proto) "InputTextarea" = Some Dist.script /\
  name Dist.script = "InputTextarea" /\
  map registration (own_values (Dist.components proto)) = own (Dist.components proto) /\
  NoDup (map name (own_values (Dist.components proto))) /\
  Src.components Dist.script_1 Dist.script proto = Dist.components proto.
Proof.
  repeat split; try apply shipped_names_unique.
  rewrite shipped_own; repeat constructor.
Qed.




(** * Further properties of the installer *)

Section MoreInstallerFacts.
Context {S : Type}.
Variable Vue : Host S.
Implicit Types (w : World S) (d : ComponentDef) (ds : list ComponentDef).

(** The reference loop looks at the world only through the host state. *)
Lemma register_frame ds w w' :
  hostState w = hostState w' ->
  trace (register_in_turn Vue ds w) = trace (register_in_turn Vue ds w') /\
  result (register_in_turn Vue ds w) = result (register_in_turn Vue ds w') /\
  hostState (world (register_in_turn Vue ds w)) =
  hostState (world (register_in_turn Vue ds w')).
Proof.
  revert w w'; induction ds as [|d ds IH]; intros w w' Hs; [now repeat split|].
  simpl; unfold bind, call_component; rewrite <- Hs.
  destruct (component Vue (name d) d (hostState w)) as [[[]|e] s']; simpl;
    [|now repeat split].
  destruct (IH {| module_components := module_components w; hostState := s' |}
               {| module_components := module_components w'; hostState := s' |}
               eq_refl) as (Ht & Hr & Hh).
  now rewrite Ht, Hr, Hh.
Qed.

Lemma register_app ds ds' w :
  register_in_turn Vue (ds ++ ds') w =
  bind (register_in_turn Vue ds) (fun _ => register_in_turn Vue ds') w.
Proof.
  revert w; induction ds as [|d ds IH]; intros w; simpl.
  - now rewrite bind_ret.
  - unfold bind.
    destruct (call_component Vue (name d) d w) as [[[]|e] w1 t1]; simpl; [|reflexivity].
    rewrite IH; unfold bind.
    destruct (register_in_turn Vue ds w1) as [[[]|e] w2 t2]; simpl; [|reflexivity].
    now rewrite app_assoc.
Qed.

End MoreInstallerFacts.

(** X1: as long as the prototype chain leaves the built-in [hasOwnProperty]
    in place (no inherited enumerable key of that name), the guard keeps
    enumerable keys inherited through the chain out of the registration:
    whichever such keys the registry object inherits, [install] makes the same
    calls, completes the same way and leaves the host in the same state. *)
Theorem inherited_keys_are_never_registered
  {S : Type} (Vue : Host S) (entries : list (string * ComponentDef))
  (proto proto' : list string) (s : S)
  (Hbuiltin : ~ In "hasOwnProperty" proto)
  (Hbuiltin' : ~ In "hasOwnProperty" proto') :
  let o := install Src.plugin Vue (Edge.world_of entries proto s) in
  let o' := install Src.plugin Vue (Edge.world_of entries proto' s) in
  trace o = trace o' /\ result o = result o' /\
  hostState (world o) = hostState (world o').
Proof.
  intros o o'; unfold o, o'.
  destruct (hasOwn (module_components (Edge.world_of entries proto s)) "hasOwnProperty")
    eqn:Hcall.
  - rewrite !install_shadowed by exact Hcall. now repeat split.
  - rewrite !install_guarded by exact Hcall. now apply register_frame.
Qed.

Lemma inherited_keys_are_never_registered_witness :
  (~ In "hasOwnProperty" ["extend"; "InputNumber"] /\ ~ In "hasOwnProperty" []) /\
  trace (install Src.plugin Hosts.strictHost
           (Edge.world_of (own (Dist.components [])) ["extend"; "InputNumber"] []))
  = trace (install Src.plugin Hosts.strictHost
             (Edge.world_of (own (Dist.components [])) [] [])).
Proof.
  assert (H1 : ~ In "hasOwnProperty" ["extend"; "InputNumber"])
    by (simpl; intuition discriminate).
  assert (H2 : ~ In "hasOwnProperty" (@nil string)) by (intros []).
  split; [split; assumption|].
  exact (proj1 (inherited_keys_are_never_registered Hosts.strictHost
                  (own (Dist.components [])) ["extend"; "InputNumber"] [] [] H1 H2)).
Defined.

(** X2: a registry that stores a component under the key [hasOwnProperty]
    cannot be installed: the guard's method lookup finds the component instead
    of the built-in, so [install] throws a [TypeError] at the first key, before
    any call of the host, and leaves the world as it was. *)
Theorem install_throws_when_hasOwnProperty_is_shadowed
  {S : Type} (Vue : Host S) (w : World S)
  (Hshadow : hasOwn (module_components w) "hasOwnProperty" = true) :
  let o := install Src.plugin Vue w in
  result o = Throw (TypeError "components.hasOwnProperty is not a function") /\
  trace o = [] /\ world o = w.
Proof. intros o; unfold o; rewrite install_shadowed by exact Hshadow. now repeat split. Qed.

Lemma install_throws_when_hasOwnProperty_is_shadowed_witness :
  hasOwn Edge.shadowing "hasOwnProperty" = true /\
  trace (install Src.plugin Hosts.hostMock
           {| module_components := Edge.shadowing; hostState := [] |}) = [].
Proof.
  split; [reflexivity|].
  exact (proj1 (proj2 (install_throws_when_hasOwnProperty_is_shadowed Hosts.hostMock
                         {| module_components := Edge.shadowing; hostState := [] |}
                         eq_refl))).
Defined.

(** X3: on a registry without own properties, whose prototype chain leaves
    the built-in [hasOwnProperty] in place (no inherited enumerable key of that
    name), [install] returns normally without calling the host and leaves the
    world untouched, whichever other keys the object inherits. *)
Theorem install_on_empty_registry
  {S : Type} (Vue : Host S) (w : World S)
  (Hempty : own (module_components w) = [])
  (Hbuiltin : ~ In "hasOwnProperty" (inherited (module_components w))) :
  let o := install Src.plugin Vue w in
  result o = Normal tt /\ trace o = [] /\ world o = w.
Proof.
  intros o; unfold o.
  assert (Hcall : hasOwn (module_components w) "hasOwnProperty" = false)
    by (unfold hasOwn, own_keys; now rewrite Hempty).
  rewrite install_guarded by exact Hcall.
  unfold visited, own_keys; rewrite Hempty; simpl. now repeat split.
Qed.

Lemma install_on_empty_registry_witness :
  (own Edge.empty_polluted = [] /\
   ~ In "hasOwnProperty" (inherited Edge.empty_polluted)) /\
  result (install Src.plugin Hosts.strictHost
            {| module_components := Edge.empty_polluted; hostState := ["InputText"] |})
  = Normal tt.
Proof.
  assert (Hb : ~ In "hasOwnProperty" (inherited Edge.empty_polluted))
    by (simpl; intuition discriminate).
  split; [split; [reflexivity|exact Hb]|].
  exact (proj1 (install_on_empty_registry Hosts.strictHost
                  {| module_components := Edge.empty_polluted;
                     hostState := ["InputText"] |} eq_refl Hb)).
Defined.

(** X4: [install] registers per entry and never merges by name: on a host
    that accepts the components, a name is passed to the host exactly as many
    times as there are registry entries whose definition declares it. *)
Theorem install_registers_a_name_once_per_entry
  {S : Type} (Vue : Host S) (w : World S) (n : string)
  (Hwf : well_formed (module_components w))
  (Hcall : hasOwn (module_components w) "hasOwnProperty" = false)
  (Hacc : accepts Vue (own_values (module_components w))) :
  count_occ string_dec (map call_name (trace (install Src.plugin Vue w))) n =
  count_occ string_dec (map name (own_values (module_components w))) n.
Proof.
  rewrite call_names_of_args, install_complete, names_of_registrations;
    [reflexivity|exact Hwf|now apply install_accepted].
Qed.

Lemma install_registers_a_name_once_per_entry_witness :
  (well_formed Edge.twins /\
   hasOwn Edge.twins "hasOwnProperty" = false /\
   accepts Hosts.hostMock (own_values Edge.twins)) /\
  count_occ string_dec
    (map call_name (trace (install Src.plugin Hosts.hostMock
                             {| module_components := Edge.twins; hostState := [] |})))
    "InputText" = 2.
Proof.
  assert (Hwf : well_formed Edge.twins)
    by (repeat constructor; simpl; intuition discriminate).
  split; [split; [exact Hwf|split; [reflexivity|apply hostMock_accepts]]|].
  exact (install_registers_a_name_once_per_entry Hosts.hostMock
           {| module_components := Edge.twins; hostState := [] |} "InputText"
           Hwf eq_refl (hostMock_accepts _)).
Defined.

(** X5: if the host throws, in whatever state, when handed some registry
    component under its declared name, [install] cannot return normally: it
    completes with a throw, and unless the guard itself failed, the value is
    the one thrown by a call of the host made during this run. *)
Theorem install_fails_when_host_rejects_a_component
  {S : Type} (Vue : Host S) (w : World S) (k : string) (d : ComponentDef)
  (Hwf : well_formed (module_components w))
  (Hentry : In (k, d) (own (module_components w)))
  (Hrej : forall s, fst (component Vue (name d) d s) <> Normal tt) :
  exists e,
    result (install Src.plugin Vue w) = Throw e /\
    (hasOwn (module_components w) "hasOwnProperty" = false ->
     exists c, In c (trace (install Src.plugin Vue w)) /\ call_result c = Throw e).
Proof.
  destruct (result (install Src.plugin Vue w)) as [[]|e] eqn:Hres.
  - exfalso.
    pose proof (install_complete Vue w Hwf Hres) as Hargs.
    assert (Hd : In (registration d) (map call_args (trace (install Src.plugin Vue w)))).
    { rewrite Hargs; apply in_map; unfold own_values.
      change d with (snd (k, d)); now apply in_map. }
    apply in_map_iff in Hd; destruct Hd as (c & Hc & Hin).
    destruct (install_records_host Vue w c Hin) as [s Hs].
    destruct (install_returned Vue w Hres) as [_ Hall].
    rewrite Forall_forall in Hall; specialize (Hall c Hin); unfold returned in Hall.
    unfold call_args, registration in Hc; injection Hc as Hn Hdef.
    apply (Hrej s). rewrite Hn, Hdef in Hs. congruence.
  - exists e; split; [reflexivity|]. intros Hcall.
    rewrite install_guarded in Hres |- * by exact Hcall.
    destruct (register_thrown _ _ _ Hres) as (pre & c & Ht & Hc & _).
    exists c; split; [|exact Hc]. rewrite Ht; apply in_or_app; right; now left.
Qed.

Lemma install_fails_when_host_rejects_a_component_witness :
  (well_formed (Dist.components []) /\
   In ("InputText", Dist.script_1) (own (Dist.components [])) /\
   forall s, fst (component (Hosts.rejecting "InputText") (name Dist.script_1)
                    Dist.script_1 s) <> Normal tt) /\
  exists e,
    result (install Src.plugin (Hosts.rejecting "InputText") (Dist.loaded [] []))
    = Throw e.
Proof.
  assert (Hrej : forall s, fst (component (Hosts.rejecting "InputText")
                                  (name Dist.script_1) Dist.script_1 s) <> Normal tt)
    by (intros s; simpl; discriminate).
  assert (Hin : In ("InputText", Dist.script_1) (own (Dist.components [])))
    by (right; left; reflexivity).
  split; [split; [apply shipped_well_formed|split; [exact Hin|exact Hrej]]|].
  destruct (install_fails_when_host_rejects_a_component
              (Hosts.rejecting "InputText") (Dist.loaded [] [])
              "InputText" Dist.script_1 (shipped_well_formed []) Hin Hrej)
    as (e & He & _).
  exists e; exact He.
Defined.

(** X6: the source plugin registers whatever the two [.vue] modules export:
    the registry's keys are the import names InputTextarea and InputText, and
    on a host that accepts them [install] returns after exactly two calls,
    the InputTextarea import first, each under the name its own definition
    declares. *)
Theorem src_plugin_registers_its_imports
  {S : Type} (Vue : Host S) (InputText InputTextarea : ComponentDef)
  (proto : list string) (s : S)
  (Hacc : accepts Vue [InputTextarea; InputText]) :
  let o := install Src.plugin Vue (Src.loaded InputText InputTextarea proto s) in
  own_keys (Src.components InputText InputTextarea proto) =
    ["InputTextarea"; "InputText"] /\
  result o = Normal tt /\
  map call_args (trace o) =
    [(name InputTextarea, InputTextarea); (name InputText, InputText)].
Proof.
  intros o.
  assert (Hwf : well_formed (Src.components InputText InputTextarea proto))
    by (repeat constructor; simpl; intuition discriminate).
  assert (Hres : result o = Normal tt)
    by (apply install_accepted; [exact Hwf|reflexivity|exact Hacc]).
  split; [reflexivity|]. split; [exact Hres|].
  unfold o; now rewrite install_complete.
Qed.

Lemma src_plugin_registers_its_imports_witness :
  accepts Hosts.hostMock [Dist.script_1; Samples.inputNumber] /\
  map call_args
    (trace (install Src.plugin Hosts.hostMock
              (Src.loaded Samples.inputNumber Dist.script_1 [] [])))
  = [("InputText", Dist.script_1); ("InputNumber", Samples.inputNumber)].
Proof.
  split; [apply hostMock_accepts|].
  exact (proj2 (proj2 (src_plugin_registers_its_imports Hosts.hostMock
                         Samples.inputNumber Dist.script_1 [] []
                         (hostMock_accepts _)))).
Defined.

(** X7: installing a registry is installing its first entries and then, if
    that returned, the remaining ones on the host as the first part left it:
    the calls are those of the first part followed by those of the second, and
    result and final host state are the second part's. If the first part
    throws, the whole stops with it. *)
Theorem install_splits_over_the_registry
  {S : Type} (Vue : Host S) (entries entries' : list (string * ComponentDef))
  (proto : list string) (s : S)
  (Hwf : NoDup (map fst (entries ++ entries')))
  (Hcall : ~ In "hasOwnProperty" (map fst (entries ++ entries'))) :
  let whole := install Src.plugin Vue (Edge.world_of (entries ++ entries') proto s) in
  let first := install Src.plugin Vue (Edge.world_of entries proto s) in
  let second :=
    install Src.plugin Vue (Edge.world_of entries' proto (hostState (world first))) in
  match result first with
  | Normal _ =>
      trace whole = trace first ++ trace second /\
      result whole = result second /\
      hostState (world whole) = hostState (world second)
  | Throw e =>
      trace whole = trace first /\
      result whole = Throw e /\
      hostState (world whole) = hostState (world first)
  end.
Proof.
  intros whole first second.
  rewrite map_app in Hwf, Hcall.
  assert (Hk : ~ In "hasOwnProperty" (map fst entries) /\
               ~ In "hasOwnProperty" (map fst entries'))
    by (split; intros H; apply Hcall, in_or_app; auto).
  assert (Hun : forall l p, ~ In "hasOwnProperty" (map fst l) ->
                  hasOwn (V := ComponentDef) {| own := l; inherited := p |}
                    "hasOwnProperty" = false).
  { intros l p H. destruct (hasOwn _ _) eqn:E; [|reflexivity].
    apply hasOwn_In in E; contradiction. }
  assert (Hvis : forall l p, NoDup (map fst l) ->
                   visited (V := ComponentDef) {| own := l; inherited := p |} = map snd l)
    by (intros l p H; apply visited_well_formed; exact H).
  set (w0 := Edge.world_of (entries ++ entries') proto s) in *.
  set (w1 := Edge.world_of entries proto s) in *.
  assert (Hw : whole = register_in_turn Vue (map snd (entries ++ entries')) w0).
  { unfold whole. rewrite install_guarded by (apply Hun; rewrite map_app; exact Hcall).
    unfold w0, Edge.world_of; cbn [module_components].
    now rewrite Hvis by (rewrite map_app; exact Hwf). }
  assert (Hf : first = register_in_turn Vue (map snd entries) w1).
  { unfold first. rewrite install_guarded by (apply Hun; tauto).
    unfold w1, Edge.world_of; cbn [module_components].
    now rewrite Hvis by eauto using NoDup_app_remove_r. }
  assert (Hs : second = register_in_turn Vue (map snd entries')
                          (Edge.world_of entries' proto (hostState (world first)))).
  { unfold second. rewrite install_guarded by (apply Hun; tauto).
    unfold Edge.world_of; cbn [module_components].
    now rewrite Hvis by eauto using NoDup_app_remove_l. }
  clearbody whole first second.
  destruct (register_frame Vue (map snd entries) w0 w1 eq_refl) as (Ht & Hr & Hh).
  rewrite <- Hf in Ht, Hr, Hh.
  rewrite Hw, map_app, register_app; unfold bind. rewrite Ht, Hr.
  destruct (result first) as [[]|e]; simpl; [|now repeat split].
  destruct (register_frame Vue (map snd entries')
              (world (register_in_turn Vue (map snd entries) w0))
              (Edge.world_of entries' proto (hostState (world first))) Hh)
    as (Ht' & Hr' & Hh').
  rewrite Hs. now rewrite Ht', Hr', Hh'.
Qed.

Lemma install_splits_over_the_registry_witness :
  (NoDup (map fst ([("InputTextarea", Dist.script)] ++ [("InputText", Dist.script_1)])) /\
   ~ In "hasOwnProperty"
       (map fst ([("InputTextarea", Dist.script)] ++ [("InputText", Dist.script_1)]))) /\
  trace (install Src.plugin Hosts.hostMock
           (Edge.world_of ([("InputTextarea", Dist.script)] ++ [("InputText", Dist.script_1)])
              [] []))
  = trace (install Src.plugin Hosts.hostMock
             (Edge.world_of [("InputTextarea", Dist.script)] [] []))
    ++ trace (install Src.plugin Hosts.hostMock
                (Edge.world_of [("InputText", Dist.script_1)] []
                   [("InputTextarea", Dist.script)])).
Proof.
  assert (Hwf : NoDup (map fst ([("InputTextarea", Dist.script)]
                                  ++ [("InputText", Dist.script_1)])))
    by (repeat constructor; simpl; intuition discriminate).
  assert (Hcall : ~ In "hasOwnProperty"
                      (map fst ([("InputTextarea", Dist.script)]
                                  ++ [("InputText", Dist.script_1)])))
    by (simpl; intuition discriminate).
  split; [split; [exact Hwf|exact Hcall]|].
  exact (proj1 (install_splits_over_the_registry Hosts.hostMock
                  [("InputTextarea", Dist.script)] [("InputText", Dist.script_1)]
                  [] [] Hwf Hcall)).
Defined.
